(** * Credit-card validator: the Luhn checksum and its HTTP handler

    A shallow embedding of [luhnAlgorithm] (luhn_algorithm.go, printed in the
    repository's tutorial) and of [creditCardValidator] (main.go), followed by
    the properties of the two that the specification states. *)

From Stdlib Require Import ZArith List String Ascii Bool Lia.
Import ListNotations.

Local Open Scope string_scope.
Local Open Scope Z_scope.

(** ** Go's machine arithmetic *)

(** Go's [int], taken at its width on the 64-bit targets (amd64, arm64):
    a signed 64-bit integer whose [+], [-] and [*] wrap around silently. *)
Module GoInt.

Definition modulus : Z := 2 ^ 64.
Definition half : Z := 2 ^ 63.

(** The representative of [z] in [-2^63, 2^63). *)
Definition wrap (z : Z) : Z := (z + half) mod modulus - half.

Definition add (a b : Z) : Z := wrap (a + b).
Definition sub (a b : Z) : Z := wrap (a - b).
Definition mul (a b : Z) : Z := wrap (a * b).

(** Go's [%] truncates toward zero: the result has the dividend's sign. *)
Definition rem (a b : Z) : Z := Z.rem a b.

Definition InRange (z : Z) : Prop := - half <= z < half.

End GoInt.

(** Go's [byte] (uint8): subtraction is taken modulo 256. *)
Module GoByte.

Definition of_ascii (c : ascii) : Z := Z.of_N (N_of_ascii c).

Definition sub (a b : Z) : Z := (a - b) mod 256.

End GoByte.

(** ** Runtime panics

    A Go function either returns or panics; indexing a string outside its
    bounds is the one operation of this program that can panic. *)

Inductive outcome (A : Type) : Type :=
| Ret (a : A)
| Panic (msg : string).

Arguments Ret {A} a.
Arguments Panic {A} msg.

Definition obind {A B : Type} (m : outcome A) (k : A -> outcome B) : outcome B :=
  match m with
  | Ret a => k a
  | Panic msg => Panic msg
  end.

Declare Scope outcome_scope.
Delimit Scope outcome_scope with outcome.
Notation "x <- m ;; k" := (obind m (fun x => k))
  (at level 100, m at next level, right associativity) : outcome_scope.

(** [cardNumber[i]]: the byte at index [i], or a panic. *)
Definition index (s : string) (i : nat) : outcome Z :=
  match String.get i s with
  | Some c => Ret (GoByte.of_ascii c)
  | None => Panic "index out of range"
  end.

(** ** luhnAlgorithm *)

(** [int(cardNumber[i] - '0')]: the subtraction is a [byte] subtraction, the
    conversion to [int] keeps the value. *)
Definition digitOfByte (b : Z) : Z := GoByte.sub b (GoByte.of_ascii "0").

Definition digitValue (c : ascii) : Z := digitOfByte (GoByte.of_ascii c).

(** The body of [if isSecondDigit { digit *= 2; if digit > 9 { digit -= 9 } }]. *)
Definition adjustDigit (isSecondDigit : bool) (digit : Z) : Z :=
  if isSecondDigit then
    let digit := GoInt.mul digit 2 in
    if digit >? 9 then GoInt.sub digit 9 else digit
  else digit.

(** The loop [for i := len(cardNumber) - 1; i >= 0; i--].  The counter [n]
    is [i + 1]: the loop stops when [i] reaches [-1], that is when [n] is
    [0], and each round reads index [i = n - 1]. *)
Fixpoint luhnLoop (cardNumber : string) (n : nat) (total : Z)
         (isSecondDigit : bool) : outcome Z :=
  match n with
  | O => Ret total
  | S i =>
      (b <- index cardNumber i ;;
       let digit := digitOfByte b in
       let digit := adjustDigit isSecondDigit digit in
       let total := GoInt.add total digit in
       luhnLoop cardNumber i total (negb isSecondDigit))%outcome
  end.

Definition luhnAlgorithm (cardNumber : string) : outcome bool :=
  (total <- luhnLoop cardNumber (String.length cardNumber) 0 false ;;
   Ret (GoInt.rem total 10 =? 0))%outcome.

(** ** The reference Luhn procedure, as the specification words it

    Positions are counted from the rightmost character, which has position 1.
    The digit value of a character is a parameter of the procedure. *)

Definition doubled (d : Z) : Z := if 2 * d >? 9 then 2 * d - 9 else 2 * d.

Definition positionValue (position : nat) (d : Z) : Z :=
  if Nat.even position then doubled d else d.

(** [cs] holds the characters from right to left, its head at [position]. *)
Fixpoint sumFromRight (value : ascii -> Z) (position : nat) (cs : list ascii) : Z :=
  match cs with
  | [] => 0
  | c :: rest => positionValue position (value c) + sumFromRight value (S position) rest
  end.

Definition referenceTotalWith (value : ascii -> Z) (s : string) : Z :=
  sumFromRight value 1 (rev (list_ascii_of_string s)).

Definition referenceTotal (s : string) : Z := referenceTotalWith digitValue s.

(** The conversion as the specification words it: the character code minus
    the character code of '0', as integers. *)
Definition plainOffset (c : ascii) : Z := GoByte.of_ascii c - GoByte.of_ascii "0".

(** The same difference as a byte holds it: reduced modulo 256. *)
Definition byteOffset (c : ascii) : Z := plainOffset c mod 256.

Definition isDigit (c : ascii) : bool :=
  (GoByte.of_ascii "0" <=? GoByte.of_ascii c) && (GoByte.of_ascii c <=? GoByte.of_ascii "9").

Definition allZeros (s : string) : Prop :=
  Forall (fun c => c = "0"%char) (list_ascii_of_string s).


(** ** The HTTP handler

    [creditCardValidator] talks to two library packages, net/http and
    encoding/json.  Every call the handler makes is recorded, in order, in a
    log that is threaded through the handler: the log stands for the
    [writer] argument, which the handler only ever passes on to these calls.
    The JSON decoder and encoder are parameters. *)

(** Go's [error]: [None] is [nil]. *)
Definition error : Type := option string.

(** The anonymous struct [cardNumber] with its field [Number]. *)
Record CardNumber : Type := { Number : string }.

Record Response : Type := { Valid : bool }.

Inductive Call : Type :=
| Call_http_Error (msg : string) (code : Z)
| Call_Decode
| Call_luhnAlgorithm (cardNumber : string)
| Call_Marshal (v : Response)
| Call_Header_Set (key value : string)
| Call_Write (data : string).

(** Constants of net/http. *)
Definition MethodPost : string := "POST".
Definition StatusOK : Z := 200.
Definition StatusBadRequest : Z := 400.
Definition StatusMethodNotAllowed : Z := 405.
Definition StatusInternalServerError : Z := 500.

(** A handler computation: it reads and extends the log, and may panic. *)
Definition Handler (A : Type) : Type := list Call -> outcome (A * list Call).

Definition hret {A : Type} (a : A) : Handler A := fun log => Ret (a, log).

Definition hbind {A B : Type} (m : Handler A) (k : A -> Handler B) : Handler B :=
  fun log =>
    match m log with
    | Ret (a, log') => k a log'
    | Panic msg => Panic msg
    end.

Definition emit (c : Call) : Handler unit := fun log => Ret (tt, (log ++ [c])%list).

Definition lift {A : Type} (m : outcome A) : Handler A :=
  fun log =>
    match m with
    | Ret a => Ret (a, log)
    | Panic msg => Panic msg
    end.

Declare Scope handler_scope.
Delimit Scope handler_scope with handler.
Notation "x <- m ;; k" := (hbind m (fun x => k))
  (at level 100, m at next level, right associativity) : handler_scope.
Notation "m ;; k" := (hbind m (fun _ => k))
  (at level 100, right associativity) : handler_scope.

(** [http.Error(writer, msg, code)]. *)
Definition http_Error (msg : string) (code : Z) : Handler unit :=
  emit (Call_http_Error msg code).

(** [writer.Header().Set(key, value)]. *)
Definition Header_Set (key value : string) : Handler unit :=
  emit (Call_Header_Set key value).

(** [writer.Write(data)]. *)
Definition Write (data : string) : Handler unit :=
  emit (Call_Write data).

(** The call [luhnAlgorithm(cardNumber.Number)], recorded in the log. *)
Definition call_luhnAlgorithm (cardNumber : string) : Handler bool :=
  (emit (Call_luhnAlgorithm cardNumber) ;; lift (luhnAlgorithm cardNumber))%handler.

Section HttpHandler.

(** What [request.Body] delivers. *)
Variable Stream : Type.

(** [json.NewDecoder(body).Decode(&cardNumber)]: given the stream and the
    struct to fill, the struct after the call and the error returned. *)
Variable decodeJSON : Stream -> CardNumber -> CardNumber * error.

(** [json.Marshal(response)]: the bytes and the error returned. *)
Variable marshalJSON : Response -> string * error.

Record Request : Type := { Method : string; Body : Stream }.

Definition json_Decode (body : Stream) (v : CardNumber) : Handler (CardNumber * error) :=
  (emit Call_Decode ;; hret (decodeJSON body v))%handler.

Definition json_Marshal (v : Response) : Handler (string * error) :=
  (emit (Call_Marshal v) ;; hret (marshalJSON v))%handler.

Definition creditCardValidator (request : Request) : Handler unit :=
  if negb (String.eqb (Method request) MethodPost) then
    http_Error "Invalid request method" StatusMethodNotAllowed
  else
    let cardNumber := {| Number := "" |} in
    (decoded <- json_Decode (Body request) cardNumber ;;
     let (cardNumber, err) := decoded : CardNumber * error in
     match err with
     | Some _ => http_Error "Invalid JSON payload" StatusBadRequest
     | None =>
         isValid <- call_luhnAlgorithm (Number cardNumber) ;;
         let response := {| Valid := isValid |} in
         marshalled <- json_Marshal response ;;
         let (jsonResponse, err) := marshalled : string * error in
         match err with
         | Some _ => http_Error "Error creating response" StatusInternalServerError
         | None =>
             Header_Set "Content-Type" "application/json" ;;
             Write jsonResponse
         end
     end)%handler.

(** The calls one invocation of the handler makes on a fresh writer. *)
Definition callsOf (request : Request) : outcome (list Call) :=
  match creditCardValidator request [] with
  | Ret (_, log) => Ret log
  | Panic msg => Panic msg
  end.

End HttpHandler.

Arguments Method {Stream} r.
Arguments Body {Stream} r.
Arguments Build_Request {Stream} Method Body.

(** ** What the client receives

    Modelled on the documentation of net/http: [http.Error] replies with the
    given message and status code as plain text; the first [Write] without a
    status written before it sends status 200 with the headers set so far; a
    handler that returns without writing sends an empty 200 reply. *)

Inductive Reply : Type :=
| ErrorReply (code : Z) (msg : string)
| DataReply (code : Z) (contentType : option string) (body : string).

Fixpoint writtenData (log : list Call) : string :=
  match log with
  | [] => ""
  | Call_Write data :: rest => (data ++ writtenData rest)%string
  | _ :: rest => writtenData rest
  end.

Fixpoint replyFrom (contentType : option string) (log : list Call) : Reply :=
  match log with
  | [] => DataReply StatusOK contentType ""
  | Call_http_Error msg code :: _ => ErrorReply code msg
  | Call_Write data :: rest => DataReply StatusOK contentType (data ++ writtenData rest)%string
  | Call_Header_Set key value :: rest =>
      if String.eqb key "Content-Type" then replyFrom (Some value) rest
      else replyFrom contentType rest
  | _ :: rest => replyFrom contentType rest
  end.

Definition replyOf (log : list Call) : Reply := replyFrom None log.

Definition statusOf (r : Reply) : Z :=
  match r with
  | ErrorReply code _ => code
  | DataReply code _ _ => code
  end.

(** ** encoding/json on the [Response] struct

    Modelled on the documentation of encoding/json: a struct is encoded as a
    JSON object keyed by the field tags, a [bool] as [true] or [false]; the
    encoding of such a value reports no error. *)

Definition quote : string := String "034"%char EmptyString.

Definition validJSON (b : bool) : string :=
  ("{" ++ quote ++ "valid" ++ quote ++ ":" ++ (if b then "true" else "false") ++ "}")%string.

Definition encodeResponse (v : Response) : string * error :=
  (validJSON (Valid v), None).

(** An encoder that always fails, to exercise the defensive branch. *)
Definition failingEncoder (v : Response) : string * error :=
  ("", Some "json: unsupported value").

(** Request bodies already classified by what the decoder makes of them. *)
Inductive SampleBody : Type :=
| Unparsable
| ObjectWithNumber (number : string)
| ObjectWithoutNumber.

(** The decoder leaves the struct untouched when the field is absent. *)
Definition sampleDecode (body : SampleBody) (v : CardNumber) : CardNumber * error :=
  match body with
  | Unparsable => (v, Some "invalid character")
  | ObjectWithNumber number => ({| Number := number |}, None)
  | ObjectWithoutNumber => (v, None)
  end.

(** The calls the handler makes for a request, read off its branches: the
    handler is shown below to append exactly these to the log. *)
Definition expectedCalls {Stream : Type}
           (decodeJSON : Stream -> CardNumber -> CardNumber * error)
           (marshalJSON : Response -> string * error)
           (request : Request Stream) : list Call :=
  if String.eqb (Method request) MethodPost then
    let (cardNumber, err) := decodeJSON (Body request) {| Number := "" |} in
    match err with
    | Some _ => [Call_Decode; Call_http_Error "Invalid JSON payload" StatusBadRequest]
    | None =>
        let response :=
          {| Valid := GoInt.rem (GoInt.wrap (referenceTotal (Number cardNumber))) 10 =? 0 |} in
        let (jsonResponse, err) := marshalJSON response in
        [Call_Decode; Call_luhnAlgorithm (Number cardNumber); Call_Marshal response]
          ++ match err with
             | Some _ => [Call_http_Error "Error creating response" StatusInternalServerError]
             | None => [Call_Header_Set "Content-Type" "application/json";
                        Call_Write jsonResponse]
             end
    end%list
  else [Call_http_Error "Invalid request method" StatusMethodNotAllowed].

(** Calls that send the reply: [http.Error] and [Write]. *)
Definition sendsReply (c : Call) : bool :=
  match c with
  | Call_http_Error _ _ => true
  | Call_Write _ => true
  | _ => false
  end.

Definition callsValidator (c : Call) : bool :=
  match c with
  | Call_luhnAlgorithm _ => true
  | _ => false
  end.

Definition callsDecoder (c : Call) : bool :=
  match c with
  | Call_Decode => true
  | _ => false
  end.

(** * Properties *)

Ltac run_handler :=
  unfold creditCardValidator, json_Decode, json_Marshal, call_luhnAlgorithm,
    http_Error, Header_Set, Write, hbind, hret, emit, lift.

(** ** Machine arithmetic *)

Module GoIntFacts.
Import GoInt.

Lemma wrap_small (z : Z) : InRange z -> wrap z = z.
Proof.
  unfold InRange, wrap, half, modulus. intros Hz.
  rewrite Z.mod_small; lia.
Qed.

Lemma wrap_range (z : Z) : InRange (wrap z).
Proof.
  unfold InRange, wrap, half, modulus.
  pose proof (Z.mod_pos_bound (z + 2 ^ 63) (2 ^ 64) ltac:(lia)). lia.
Qed.

Lemma wrap_idem (z : Z) : wrap (wrap z) = wrap z.
Proof. apply wrap_small, wrap_range. Qed.

Lemma wrap_add_l (a b : Z) : wrap (wrap a + b) = wrap (a + b).
Proof.
  unfold wrap. f_equal.
  replace ((a + half) mod modulus - half + b + half)
    with ((a + half) mod modulus + b) by ring.
  rewrite Zplus_mod_idemp_l. f_equal. ring.
Qed.

Lemma wrap_0 : wrap 0 = 0.
Proof. reflexivity. Qed.

End GoIntFacts.

(** ** Strings as byte sequences *)

Lemma get_nth_error (s : string) (i : nat) :
  String.get i s = nth_error (list_ascii_of_string s) i.
Proof.
  revert i. induction s as [|c s IH]; intros [|i]; simpl; auto.
Qed.

Lemma length_list_ascii (s : string) :
  String.length s = List.length (list_ascii_of_string s).
Proof. induction s; simpl; congruence. Qed.

Lemma append_empty_r (s : string) : (s ++ "")%string = s.
Proof. induction s as [|c s IH]; simpl; congruence. Qed.

Lemma firstn_snoc {A : Type} (l : list A) (i : nat) (x : A) :
  nth_error l i = Some x -> firstn (S i) l = (firstn i l ++ [x])%list.
Proof.
  revert i. induction l as [|a l IH]; intros [|i] H; simpl in *; try discriminate.
  - congruence.
  - f_equal. now apply IH.
Qed.

Lemma of_ascii_range (c : ascii) : 0 <= GoByte.of_ascii c < 256.
Proof.
  unfold GoByte.of_ascii.
  destruct c as [[] [] [] [] [] [] [] []]; vm_compute; split; congruence.
Qed.

(** ** The digit conversion *)

Lemma digitOfByte_range (b : Z) : 0 <= digitOfByte b < 256.
Proof. unfold digitOfByte, GoByte.sub. apply Z.mod_pos_bound. lia. Qed.

Lemma digitValue_range (c : ascii) : 0 <= digitValue c < 256.
Proof. apply digitOfByte_range. Qed.

Lemma digitValue_mod (c : ascii) : digitValue c = plainOffset c mod 256.
Proof. reflexivity. Qed.

Lemma digitValue_at_or_above_zero (c : ascii) :
  GoByte.of_ascii "0" <= GoByte.of_ascii c -> digitValue c = plainOffset c.
Proof.
  intros H. rewrite digitValue_mod. unfold plainOffset in *.
  pose proof (of_ascii_range c). change (GoByte.of_ascii "0") with 48 in *.
  apply Z.mod_small. lia.
Qed.

Lemma digitValue_below_zero (c : ascii) :
  GoByte.of_ascii c < GoByte.of_ascii "0" -> digitValue c = plainOffset c + 256.
Proof.
  intros H. rewrite digitValue_mod. unfold plainOffset in *.
  pose proof (of_ascii_range c). change (GoByte.of_ascii "0") with 48 in *.
  symmetry. apply Z.mod_unique with (q := -1); lia.
Qed.

(** ** The loop against the reference sum *)

Lemma doubled_range (d : Z) : 0 <= d < 256 -> 0 <= doubled d <= 501.
Proof. unfold doubled. intros H. destruct (2 * d >? 9) eqn:E; lia. Qed.

Lemma positionValue_range (p : nat) (d : Z) :
  0 <= d < 256 -> 0 <= positionValue p d <= 501.
Proof.
  intros H. unfold positionValue. destruct (Nat.even p).
  - now apply doubled_range.
  - lia.
Qed.

Lemma adjustDigit_positionValue (p : nat) (d : Z) :
  0 <= d < 256 -> adjustDigit (Nat.even p) d = positionValue p d.
Proof.
  intros H. unfold adjustDigit, positionValue, doubled, GoInt.mul, GoInt.sub.
  destruct (Nat.even p); [|reflexivity].
  rewrite (GoIntFacts.wrap_small (d * 2)) by (unfold GoInt.InRange, GoInt.half; lia).
  replace (d * 2) with (2 * d) by ring.
  destruct (2 * d >? 9); [|reflexivity].
  apply GoIntFacts.wrap_small. unfold GoInt.InRange, GoInt.half. lia.
Qed.

Lemma sumFromRight_app (value : ascii -> Z) (xs ys : list ascii) (p : nat) :
  sumFromRight value p (xs ++ ys)
  = sumFromRight value p xs + sumFromRight value (p + List.length xs) ys.
Proof.
  revert p. induction xs as [|x xs IH]; intros p; simpl.
  - now rewrite Nat.add_0_r.
  - rewrite IH. replace (S p + List.length xs)%nat with (p + S (List.length xs))%nat by lia.
    ring.
Qed.

Lemma sumFromRight_range (cs : list ascii) (p : nat) :
  0 <= sumFromRight digitValue p cs <= 501 * Z.of_nat (List.length cs).
Proof.
  revert p. induction cs as [|c cs IH]; intros p.
  - simpl. lia.
  - cbn [sumFromRight List.length].
    pose proof (positionValue_range p _ (digitValue_range c)).
    specialize (IH (S p)). lia.
Qed.

Lemma referenceTotal_range (s : string) :
  0 <= referenceTotal s <= 501 * Z.of_nat (String.length s).
Proof.
  unfold referenceTotal, referenceTotalWith.
  rewrite length_list_ascii, <- (length_rev (list_ascii_of_string s)).
  apply sumFromRight_range.
Qed.

(** The loop invariant: started at counter [n] with the flag equal to the
    parity of position [p], the loop returns the running total plus the
    reference sum of the first [n] characters, read right to left from
    position [p], reduced to the range of [int]. *)
Lemma luhnLoop_total (s : string) (n : nat) :
  forall (p : nat) (total : Z),
    (n <= String.length s)%nat ->
    GoInt.wrap total = total ->
    luhnLoop s n total (Nat.even p)
    = Ret (GoInt.wrap (total + sumFromRight digitValue p
                                 (rev (firstn n (list_ascii_of_string s))))).
Proof.
  induction n as [|i IH]; intros p total Hn Ht.
  - simpl. now rewrite Z.add_0_r, Ht.
  - assert (Hi : (i < List.length (list_ascii_of_string s))%nat)
      by (rewrite <- length_list_ascii; lia).
    destruct (nth_error (list_ascii_of_string s) i) as [c|] eqn:Hc;
      [|apply nth_error_None in Hc; lia].
    cbn [luhnLoop]. unfold index. rewrite get_nth_error, Hc. cbn [obind].
    change (digitOfByte (GoByte.of_ascii c)) with (digitValue c).
    rewrite adjustDigit_positionValue by apply digitValue_range.
    replace (negb (Nat.even p)) with (Nat.even (S p))
      by (rewrite Nat.even_succ, <- Nat.negb_even; reflexivity).
    rewrite IH by (try lia; apply GoIntFacts.wrap_idem).
    unfold GoInt.add. rewrite GoIntFacts.wrap_add_l.
    rewrite (firstn_snoc _ _ _ Hc), rev_app_distr. cbn [rev app sumFromRight].
    f_equal. f_equal. ring.
Qed.

(** [luhnAlgorithm] never panics: it returns the divisibility test on the
    reference total reduced to the range of [int]. *)
Lemma luhnAlgorithm_eq (s : string) :
  luhnAlgorithm s = Ret (GoInt.rem (GoInt.wrap (referenceTotal s)) 10 =? 0).
Proof.
  unfold luhnAlgorithm.
  change false with (Nat.even 1).
  rewrite (luhnLoop_total s (String.length s) 1 0) by (auto; reflexivity).
  cbn [obind]. rewrite Z.add_0_l.
  rewrite length_list_ascii, firstn_all. reflexivity.
Qed.

Lemma referenceTotal_no_overflow (s : string) :
  Z.of_nat (String.length s) < 2 ^ 54 ->
  GoInt.wrap (referenceTotal s) = referenceTotal s.
Proof.
  intros H. apply GoIntFacts.wrap_small.
  pose proof (referenceTotal_range s). unfold GoInt.InRange, GoInt.half. lia.
Qed.

Lemma rem_zero_iff_divide (z : Z) : (GoInt.rem z 10 =? 0) = true <-> (10 | z).
Proof.
  unfold GoInt.rem. rewrite Z.eqb_eq. split.
  - intros H. apply Z.rem_divide; [lia | exact H].
  - intros H. apply Z.rem_divide; [lia | exact H].
Qed.

(** ** The handler's calls *)

Section HandlerFacts.

Context {Stream : Type}.
Variable decodeJSON : Stream -> CardNumber -> CardNumber * error.
Variable marshalJSON : Response -> string * error.

(** The handler never reads the log: it appends the calls determined by
    the request, whatever the log holds. *)
Lemma creditCardValidator_appends (request : Request Stream) (log : list Call) :
  creditCardValidator Stream decodeJSON marshalJSON request log
  = Ret (tt, (log ++ expectedCalls decodeJSON marshalJSON request)%list).
Proof.
  unfold expectedCalls. run_handler.
  destruct (String.eqb (Method request) MethodPost); cbn [negb]; [|reflexivity].
  destruct (decodeJSON (Body request) {| Number := "" |}) as [cardNumber [e|]].
  - now rewrite <- app_assoc.
  - rewrite luhnAlgorithm_eq.
    destruct (marshalJSON _) as [js [e|]]; now rewrite <- !app_assoc.
Qed.

Lemma callsOf_expected (request : Request Stream) :
  callsOf Stream decodeJSON marshalJSON request
  = Ret (expectedCalls decodeJSON marshalJSON request).
Proof.
  unfold callsOf. now rewrite creditCardValidator_appends.
Qed.

End HandlerFacts.

Lemma expectedCalls_not_post {Stream : Type} decodeJSON marshalJSON
      (request : Request Stream) :
  Method request <> MethodPost ->
  expectedCalls decodeJSON marshalJSON request
  = [Call_http_Error "Invalid request method" StatusMethodNotAllowed].
Proof.
  intros H. unfold expectedCalls.
  destruct (String.eqb_spec (Method request) MethodPost); [contradiction | reflexivity].
Qed.

Lemma expectedCalls_undecodable {Stream : Type} decodeJSON marshalJSON
      (request : Request Stream) (cardNumber : CardNumber) (e : string) :
  Method request = MethodPost ->
  decodeJSON (Body request) {| Number := "" |} = (cardNumber, Some e) ->
  expectedCalls decodeJSON marshalJSON request
  = [Call_Decode; Call_http_Error "Invalid JSON payload" StatusBadRequest].
Proof.
  intros Hm Hd. unfold expectedCalls. now rewrite Hm, Hd.
Qed.

Lemma expectedCalls_decoded {Stream : Type} decodeJSON marshalJSON
      (request : Request Stream) (cardNumber : CardNumber) :
  Method request = MethodPost ->
  decodeJSON (Body request) {| Number := "" |} = (cardNumber, None) ->
  let response :=
    {| Valid := GoInt.rem (GoInt.wrap (referenceTotal (Number cardNumber))) 10 =? 0 |} in
  expectedCalls decodeJSON marshalJSON request
  = ([Call_Decode; Call_luhnAlgorithm (Number cardNumber); Call_Marshal response]
       ++ match snd (marshalJSON response) with
          | Some _ => [Call_http_Error "Error creating response" StatusInternalServerError]
          | None => [Call_Header_Set "Content-Type" "application/json";
                     Call_Write (fst (marshalJSON response))]
          end)%list.
Proof.
  intros Hm Hd. unfold expectedCalls. rewrite Hm, Hd. cbn [String.eqb].
  change (String.eqb MethodPost MethodPost) with true. cbv iota.
  destruct (marshalJSON _) as [js [e|]]; reflexivity.
Qed.

(** * The specification's claims *)

(** ** The checksum *)

Example luhn_sample_textbook : luhnAlgorithm "79927398713" = Ret true.
Proof. vm_compute. reflexivity. Qed.

Example luhn_sample_ampersand : luhnAlgorithm "&" = Ret false.
Proof. vm_compute. reflexivity. Qed.

Lemma sumFromRight_ext (value value' : ascii -> Z) (cs : list ascii) :
  Forall (fun c => value c = value' c) cs ->
  forall p : nat, sumFromRight value p cs = sumFromRight value' p cs.
Proof.
  induction 1 as [|c cs Hc _ IH]; intros p; [reflexivity|].
  cbn [sumFromRight]. now rewrite Hc, IH.
Qed.

Lemma referenceTotal_byteOffset (s : string) :
  referenceTotalWith byteOffset s = referenceTotal s.
Proof.
  unfold referenceTotal, referenceTotalWith. apply sumFromRight_ext.
  apply Forall_forall. intros c _. symmetry. apply digitValue_mod.
Qed.

Lemma referenceTotal_plainOffset (s : string) :
  Forall (fun c => GoByte.of_ascii "0" <= GoByte.of_ascii c) (list_ascii_of_string s) ->
  referenceTotalWith plainOffset s = referenceTotal s.
Proof.
  intros H. unfold referenceTotal, referenceTotalWith. apply sumFromRight_ext.
  apply Forall_rev. revert H. apply Forall_impl.
  intros c Hc. symmetry. now apply digitValue_at_or_above_zero.
Qed.

(** C1, as stated, fails when the digit value is the difference of the
    character codes: a hyphen is below '0', and for 4003-6000-0000-0017 the
    reference total with that difference is 10, divisible by 10, while
    [luhnAlgorithm], whose byte subtraction turns the hyphens into 253,
    computes 1025 and returns false. *)
Lemma plain_offset_reference_disagrees :
  luhnAlgorithm "4003-6000-0000-0017" = Ret false
  /\ referenceTotalWith plainOffset "4003-6000-0000-0017" = 10
  /\ (10 | referenceTotalWith plainOffset "4003-6000-0000-0017").
Proof.
  split; [vm_compute; reflexivity|].
  split; [vm_compute; reflexivity|].
  exists 1. vm_compute. reflexivity.
Qed.

(** C1, amended.  For every input string below 2^54 bytes (so that the
    64-bit running total cannot wrap around), [luhnAlgorithm] returns, and
    returns true if and only if the total of the reference procedure is
    divisible by 10, where the digit value of a character is its code minus
    the code of '0' reduced modulo 256.  The reference procedure walks the
    string from its last character to its first, doubles the digit value at
    positions 2, 4, 6, ... counted from the right, subtracts 9 from a doubled
    value above 9, and sums the values.  For a string whose characters are
    all at or above '0', so for every string of digits, the same holds with
    the plain difference of the codes as digit value. *)
Theorem luhnAlgorithm_matches_byte_reference (s : string) :
  Z.of_nat (String.length s) < 2 ^ 54 ->
  exists b : bool,
    luhnAlgorithm s = Ret b
    /\ (b = true <-> (10 | referenceTotalWith byteOffset s))
    /\ (Forall (fun c => GoByte.of_ascii "0" <= GoByte.of_ascii c)
               (list_ascii_of_string s) ->
        (b = true <-> (10 | referenceTotalWith plainOffset s))).
Proof.
  intros Hlen. eexists. split; [apply luhnAlgorithm_eq|].
  rewrite referenceTotal_no_overflow by assumption.
  split.
  - replace (referenceTotalWith byteOffset s) with (referenceTotal s)
      by (symmetry; apply referenceTotal_byteOffset).
    apply rem_zero_iff_divide.
  - intros Hs. rewrite (referenceTotal_plainOffset s Hs). apply rem_zero_iff_divide.
Qed.

Lemma luhnAlgorithm_matches_byte_reference_witness :
  Z.of_nat (String.length "4003600000000014") < 2 ^ 54
  /\ Forall (fun c => GoByte.of_ascii "0" <= GoByte.of_ascii c)
            (list_ascii_of_string "4003600000000014")
  /\ luhnAlgorithm "4003600000000014" = Ret true
  /\ (10 | referenceTotalWith byteOffset "4003600000000014")
  /\ (10 | referenceTotalWith plainOffset "4003600000000014").
Proof.
  assert (Hlen : Z.of_nat (String.length "4003600000000014") < 2 ^ 54)
    by (vm_compute; reflexivity).
  assert (Hs : Forall (fun c => GoByte.of_ascii "0" <= GoByte.of_ascii c)
                      (list_ascii_of_string "4003600000000014"))
    by (repeat constructor; vm_compute; discriminate).
  destruct (luhnAlgorithm_matches_byte_reference "4003600000000014" Hlen)
    as (b & Hrun & Hbyte & Hplain).
  assert (Hb : b = true).
  { assert (Hv : luhnAlgorithm "4003600000000014" = Ret true)
      by (vm_compute; reflexivity).
    rewrite Hv in Hrun. now injection Hrun. }
  split; [exact Hlen|]. split; [exact Hs|].
  split; [rewrite Hrun, Hb; reflexivity|].
  split; [apply Hbyte, Hb | apply (Hplain Hs), Hb].
Defined.

(** C5.  [luhnAlgorithm] accepts 4003600000000014 and rejects
    4003600000000015, the same number with its last digit incremented. *)
Theorem luhnAlgorithm_test_vectors :
  luhnAlgorithm "4003600000000014" = Ret true
  /\ luhnAlgorithm "4003600000000015" = Ret false.
Proof. split; vm_compute; reflexivity. Qed.

(** C6, as stated, fails: the value of a character below '0' is not its
    offset from '0'.  The hyphen has offset -3 and value 253; the ampersand
    has offset -10, which would make the one-character string valid, and
    value 246, with which [luhnAlgorithm] rejects it. *)
Lemma digitValue_is_not_the_offset :
  digitValue "-" <> plainOffset "-"
  /\ luhnAlgorithm "&" = Ret false
  /\ (10 | referenceTotalWith plainOffset "&").
Proof.
  split; [|split].
  - vm_compute. discriminate.
  - vm_compute. reflexivity.
  - exists (-1). vm_compute. reflexivity.
Qed.

(** C6, amended.  Each character is converted by the byte subtraction of
    '0', with no validation: the value is the offset from '0' modulo 256, in
    0..255.  It is the offset itself for a character at or above '0' (0..9
    for a digit), and the offset plus 256 for a character below '0'.  The
    algorithm proceeds with that value: for every string the validator
    returns a boolean, the divisibility test on the total of these values,
    and a decoded number never makes the handler reply with an error. *)
Theorem digit_conversion_unchecked :
  (forall c : ascii,
      digitValue c = plainOffset c mod 256 /\ 0 <= digitValue c <= 255)
  /\ (forall c : ascii,
         isDigit c = true -> digitValue c = plainOffset c /\ 0 <= digitValue c <= 9)
  /\ (forall c : ascii,
         isDigit c = false ->
         10 <= digitValue c <= 255
         /\ (GoByte.of_ascii "9" < GoByte.of_ascii c -> digitValue c = plainOffset c)
         /\ (GoByte.of_ascii c < GoByte.of_ascii "0" -> digitValue c = plainOffset c + 256))
  /\ (forall s : string,
         luhnAlgorithm s = Ret (GoInt.rem (GoInt.wrap (referenceTotal s)) 10 =? 0))
  /\ (forall (Stream : Type) (decodeJSON : Stream -> CardNumber -> CardNumber * error)
             (request : Request Stream) (cardNumber : CardNumber),
         Method request = MethodPost ->
         decodeJSON (Body request) {| Number := "" |} = (cardNumber, None) ->
         exists calls : list Call,
           callsOf Stream decodeJSON encodeResponse request = Ret calls
           /\ statusOf (replyOf calls) = StatusOK).
Proof.
  split; [|split; [|split; [|split]]].
  - intros c. split; [apply digitValue_mod|].
    pose proof (digitValue_range c). lia.
  - intros c Hc. unfold isDigit in Hc.
    apply andb_true_iff in Hc. destruct Hc as [Hlo Hhi].
    apply Z.leb_le in Hlo, Hhi.
    rewrite (digitValue_at_or_above_zero c Hlo). unfold plainOffset.
    change (GoByte.of_ascii "0") with 48 in *. change (GoByte.of_ascii "9") with 57 in *.
    split; [reflexivity | lia].
  - intros c Hc. unfold isDigit in Hc.
    apply andb_false_iff in Hc.
    pose proof (of_ascii_range c) as Hr.
    pose proof (digitValue_at_or_above_zero c) as Hup.
    pose proof (digitValue_below_zero c) as Hdown.
    unfold plainOffset in *.
    change (GoByte.of_ascii "0") with 48 in *. change (GoByte.of_ascii "9") with 57 in *.
    split; [|split].
    + destruct Hc as [Hc|Hc]; apply Z.leb_gt in Hc; lia.
    + intros H. apply Hup. lia.
    + exact Hdown.
  - apply luhnAlgorithm_eq.
  - intros Stream decodeJSON request cardNumber Hm Hd.
    eexists. split; [apply callsOf_expected|].
    rewrite (expectedCalls_decoded _ _ _ _ Hm Hd). reflexivity.
Qed.

Lemma digit_conversion_unchecked_witness :
  isDigit "7" = true
  /\ isDigit "-" = false
  /\ GoByte.of_ascii "-" < GoByte.of_ascii "0"
  /\ digitValue "7" = 7
  /\ digitValue "-" = plainOffset "-" + 256
  /\ luhnAlgorithm "4003-6000" = Ret false
  /\ exists calls : list Call,
      callsOf SampleBody sampleDecode encodeResponse
              (Build_Request "POST" (ObjectWithNumber "4003-6000")) = Ret calls
      /\ statusOf (replyOf calls) = StatusOK.
Proof.
  destruct digit_conversion_unchecked as (_ & Hdigit & Hother & Hrun & Hreply).
  split; [reflexivity|]. split; [reflexivity|]. split; [reflexivity|].
  split; [|split; [|split]].
  - rewrite (proj1 (Hdigit "7"%char eq_refl)). reflexivity.
  - apply (Hother "-"%char eq_refl). reflexivity.
  - rewrite Hrun. vm_compute. reflexivity.
  - apply (Hreply SampleBody sampleDecode
                  (Build_Request "POST" (ObjectWithNumber "4003-6000"))
                  {| Number := "4003-6000" |}); reflexivity.
Defined.

(** C7.  [luhnAlgorithm] accepts the empty string, and accepts every string
    made of '0' characters only, whatever its length; sixteen zeros are one
    such string. *)
Theorem luhnAlgorithm_accepts_zeros :
  luhnAlgorithm "" = Ret true
  /\ luhnAlgorithm "0000000000000000" = Ret true
  /\ forall s : string, allZeros s -> luhnAlgorithm s = Ret true.
Proof.
  assert (Hz : forall cs p, Forall (fun c => c = "0"%char) cs ->
                            sumFromRight digitValue p cs = 0).
  { induction cs as [|c cs IH]; intros p Hall; [reflexivity|].
    inversion Hall as [|? ? Hc Hcs]; subst.
    cbn [sumFromRight]. rewrite (IH _ Hcs).
    unfold positionValue. destruct (Nat.even p); reflexivity. }
  split; [vm_compute; reflexivity|].
  split; [vm_compute; reflexivity|].
  intros s Hs. rewrite luhnAlgorithm_eq.
  unfold referenceTotal, referenceTotalWith.
  rewrite Hz; [reflexivity|].
  apply Forall_rev. exact Hs.
Qed.

Lemma luhnAlgorithm_accepts_zeros_witness :
  allZeros "000" /\ luhnAlgorithm "000" = Ret true.
Proof.
  assert (H : allZeros "000") by (repeat constructor).
  split; [exact H|].
  exact (proj2 (proj2 luhnAlgorithm_accepts_zeros) "000" H).
Defined.

(** C10.  Prepending a '0' preserves the verdict: for every string [s],
    [luhnAlgorithm] gives the same result on "0" followed by [s] as on [s],
    because the leading zero adds 0 to the total at either parity. *)
Theorem luhnAlgorithm_leading_zero (s : string) :
  luhnAlgorithm (String "0" s) = luhnAlgorithm s
  /\ referenceTotal (String "0" s) = referenceTotal s.
Proof.
  assert (Ht : referenceTotal (String "0" s) = referenceTotal s).
  { unfold referenceTotal, referenceTotalWith.
    cbn [list_ascii_of_string rev]. rewrite sumFromRight_app.
    cbn [sumFromRight]. unfold positionValue.
    destruct (Nat.even _); cbn; lia. }
  split; [|exact Ht].
  now rewrite !luhnAlgorithm_eq, Ht.
Qed.

(** ** The handler *)

Section HandlerClaims.

Context {Stream : Type}.
Variable decodeJSON : Stream -> CardNumber -> CardNumber * error.

(** C2.  For every POST request whose body decodes into the struct, the
    handler sets Content-Type to application/json and writes the encoding
    of {valid: b}, where b is the result of [luhnAlgorithm] on the decoded
    number; it calls [http.Error] nowhere, so the reply has status 200,
    also when b is false. *)
Theorem post_reply_is_the_verdict (request : Request Stream) (cardNumber : CardNumber) :
  Method request = MethodPost ->
  decodeJSON (Body request) {| Number := "" |} = (cardNumber, None) ->
  exists b : bool,
    luhnAlgorithm (Number cardNumber) = Ret b
    /\ callsOf Stream decodeJSON encodeResponse request
       = Ret [Call_Decode;
              Call_luhnAlgorithm (Number cardNumber);
              Call_Marshal {| Valid := b |};
              Call_Header_Set "Content-Type" "application/json";
              Call_Write (validJSON b)]
    /\ replyOf [Call_Decode;
                Call_luhnAlgorithm (Number cardNumber);
                Call_Marshal {| Valid := b |};
                Call_Header_Set "Content-Type" "application/json";
                Call_Write (validJSON b)]
       = DataReply 200 (Some "application/json") (validJSON b)
    /\ validJSON b = (if b then "{" ++ quote ++ "valid" ++ quote ++ ":true}"
                      else "{" ++ quote ++ "valid" ++ quote ++ ":false}")%string.
Proof.
  intros Hm Hd. eexists. split; [apply luhnAlgorithm_eq|].
  split; [|split].
  - rewrite callsOf_expected, (expectedCalls_decoded _ _ _ _ Hm Hd). reflexivity.
  - cbn [replyOf replyFrom writtenData String.eqb Ascii.eqb Bool.eqb].
    now rewrite append_empty_r.
  - destruct (GoInt.rem _ _ =? 0); reflexivity.
Qed.

(** C3.  For every request whose method is not POST, the handler makes one
    call, [http.Error] with "Invalid request method" and status 405, and
    returns: it neither decodes the body nor calls the validator. *)
Theorem other_methods_get_405 (marshalJSON : Response -> string * error)
        (request : Request Stream) :
  Method request <> MethodPost ->
  exists calls : list Call,
    callsOf Stream decodeJSON marshalJSON request = Ret calls
    /\ calls = [Call_http_Error "Invalid request method" 405]
    /\ replyOf calls = ErrorReply 405 "Invalid request method"
    /\ ~ In Call_Decode calls
    /\ forall number : string, ~ In (Call_luhnAlgorithm number) calls.
Proof.
  intros Hm. eexists. split; [apply callsOf_expected|].
  rewrite (expectedCalls_not_post _ _ _ Hm).
  split; [reflexivity|]. split; [reflexivity|].
  split; [|intros number]; intros [H|[]]; discriminate H.
Qed.

(** C4.  For every POST request whose body the decoder rejects, the handler
    calls [http.Error] with "Invalid JSON payload" and status 400 and
    returns without calling the validator. *)
Theorem undecodable_body_gets_400 (marshalJSON : Response -> string * error)
        (request : Request Stream) (cardNumber : CardNumber) (e : string) :
  Method request = MethodPost ->
  decodeJSON (Body request) {| Number := "" |} = (cardNumber, Some e) ->
  exists calls : list Call,
    callsOf Stream decodeJSON marshalJSON request = Ret calls
    /\ calls = [Call_Decode; Call_http_Error "Invalid JSON payload" 400]
    /\ replyOf calls = ErrorReply 400 "Invalid JSON payload"
    /\ forall number : string, ~ In (Call_luhnAlgorithm number) calls.
Proof.
  intros Hm Hd. eexists. split; [apply callsOf_expected|].
  rewrite (expectedCalls_undecodable _ _ _ _ _ Hm Hd).
  split; [reflexivity|]. split; [reflexivity|].
  intros number [H|[H|[]]]; discriminate H.
Qed.

(** C9.  If encoding the response fails, the handler calls [http.Error]
    with "Error creating response" and status 500 and returns, writing
    nothing else.  The encoder of a struct with one boolean field never
    fails, and with it no decodable POST request reaches that branch. *)
Theorem encoding_failure_gets_500 (request : Request Stream) (cardNumber : CardNumber) :
  Method request = MethodPost ->
  decodeJSON (Body request) {| Number := "" |} = (cardNumber, None) ->
  (forall (marshalJSON : Response -> string * error) (b : bool),
      luhnAlgorithm (Number cardNumber) = Ret b ->
      snd (marshalJSON {| Valid := b |}) <> None ->
      exists calls : list Call,
        callsOf Stream decodeJSON marshalJSON request = Ret calls
        /\ calls = [Call_Decode;
                    Call_luhnAlgorithm (Number cardNumber);
                    Call_Marshal {| Valid := b |};
                    Call_http_Error "Error creating response" 500]
        /\ replyOf calls = ErrorReply 500 "Error creating response")
  /\ (forall v : Response, snd (encodeResponse v) = None)
  /\ (exists calls : list Call,
         callsOf Stream decodeJSON encodeResponse request = Ret calls
         /\ statusOf (replyOf calls) = 200
         /\ forall (msg : string) (code : Z), ~ In (Call_http_Error msg code) calls).
Proof.
  intros Hm Hd. split; [|split].
  - intros marshalJSON b Hb Hfail.
    rewrite luhnAlgorithm_eq in Hb. injection Hb as Hb.
    eexists. split; [apply callsOf_expected|].
    rewrite (expectedCalls_decoded _ _ _ _ Hm Hd). rewrite Hb.
    destruct (snd (marshalJSON {| Valid := b |})); [|contradiction].
    split; [reflexivity|]. reflexivity.
  - reflexivity.
  - eexists. split; [apply callsOf_expected|].
    rewrite (expectedCalls_decoded _ _ _ _ Hm Hd).
    split; [reflexivity|].
    intros msg code H. cbn in H.
    repeat (destruct H as [H|H]; [discriminate H|]). exact H.
Qed.

End HandlerClaims.

(** ** The claims on concrete requests *)

Lemma post_reply_is_the_verdict_witness :
  Method (Build_Request "POST" (ObjectWithNumber "4003600000000015")) = MethodPost
  /\ sampleDecode (ObjectWithNumber "4003600000000015") {| Number := "" |}
     = ({| Number := "4003600000000015" |}, None)
  /\ exists b : bool,
      luhnAlgorithm "4003600000000015" = Ret b
      /\ callsOf SampleBody sampleDecode encodeResponse
                 (Build_Request "POST" (ObjectWithNumber "4003600000000015"))
         = Ret [Call_Decode;
                Call_luhnAlgorithm "4003600000000015";
                Call_Marshal {| Valid := b |};
                Call_Header_Set "Content-Type" "application/json";
                Call_Write (validJSON b)]
      /\ replyOf [Call_Decode;
                  Call_luhnAlgorithm "4003600000000015";
                  Call_Marshal {| Valid := b |};
                  Call_Header_Set "Content-Type" "application/json";
                  Call_Write (validJSON b)]
         = DataReply 200 (Some "application/json") (validJSON b)
      /\ validJSON b = (if b then "{" ++ quote ++ "valid" ++ quote ++ ":true}"
                        else "{" ++ quote ++ "valid" ++ quote ++ ":false}")%string.
Proof.
  split; [reflexivity|]. split; [reflexivity|].
  apply (post_reply_is_the_verdict sampleDecode
           (Build_Request "POST" (ObjectWithNumber "4003600000000015"))
           {| Number := "4003600000000015" |}); reflexivity.
Defined.

Lemma other_methods_get_405_witness :
  Method (Build_Request "GET" (ObjectWithNumber "4003600000000014")) <> MethodPost
  /\ exists calls : list Call,
      callsOf SampleBody sampleDecode encodeResponse
              (Build_Request "GET" (ObjectWithNumber "4003600000000014")) = Ret calls
      /\ calls = [Call_http_Error "Invalid request method" 405]
      /\ replyOf calls = ErrorReply 405 "Invalid request method"
      /\ ~ In Call_Decode calls
      /\ forall number : string, ~ In (Call_luhnAlgorithm number) calls.
Proof.
  assert (H : Method (Build_Request "GET" (ObjectWithNumber "4003600000000014"))
              <> MethodPost) by (cbn; discriminate).
  split; [exact H|].
  exact (other_methods_get_405 sampleDecode encodeResponse _ H).
Defined.

Lemma undecodable_body_gets_400_witness :
  Method (Build_Request "POST" Unparsable) = MethodPost
  /\ sampleDecode Unparsable {| Number := "" |}
     = ({| Number := "" |}, Some "invalid character")
  /\ exists calls : list Call,
      callsOf SampleBody sampleDecode encodeResponse (Build_Request "POST" Unparsable)
      = Ret calls
      /\ calls = [Call_Decode; Call_http_Error "Invalid JSON payload" 400]
      /\ replyOf calls = ErrorReply 400 "Invalid JSON payload"
      /\ forall number : string, ~ In (Call_luhnAlgorithm number) calls.
Proof.
  split; [reflexivity|]. split; [reflexivity|].
  apply (undecodable_body_gets_400 sampleDecode encodeResponse
           (Build_Request "POST" Unparsable) {| Number := "" |} "invalid character");
    reflexivity.
Defined.

Lemma encoding_failure_gets_500_witness :
  Method (Build_Request "POST" (ObjectWithNumber "4003600000000014")) = MethodPost
  /\ sampleDecode (ObjectWithNumber "4003600000000014") {| Number := "" |}
     = ({| Number := "4003600000000014" |}, None)
  /\ luhnAlgorithm "4003600000000014" = Ret true
  /\ snd (failingEncoder {| Valid := true |}) <> None
  /\ (exists calls : list Call,
         callsOf SampleBody sampleDecode failingEncoder
                 (Build_Request "POST" (ObjectWithNumber "4003600000000014")) = Ret calls
         /\ calls = [Call_Decode;
                     Call_luhnAlgorithm "4003600000000014";
                     Call_Marshal {| Valid := true |};
                     Call_http_Error "Error creating response" 500]
         /\ replyOf calls = ErrorReply 500 "Error creating response")
  /\ (exists calls : list Call,
         callsOf SampleBody sampleDecode encodeResponse
                 (Build_Request "POST" (ObjectWithNumber "4003600000000014")) = Ret calls
         /\ statusOf (replyOf calls) = 200
         /\ forall (msg : string) (code : Z), ~ In (Call_http_Error msg code) calls).
Proof.
  assert (Hb : luhnAlgorithm "4003600000000014" = Ret true)
    by (vm_compute; reflexivity).
  assert (Hf : snd (failingEncoder {| Valid := true |}) <> None)
    by (cbn; discriminate).
  destruct (encoding_failure_gets_500 sampleDecode
              (Build_Request "POST" (ObjectWithNumber "4003600000000014"))
              {| Number := "4003600000000014" |} eq_refl eq_refl)
    as (Hfail & _ & Hok).
  split; [reflexivity|]. split; [reflexivity|].
  split; [exact Hb|]. split; [exact Hf|].
  split; [exact (Hfail failingEncoder true Hb Hf) | exact Hok].
Defined.

(** The end-to-end examples of the specification. *)

Example end_to_end_success :
  callsOf SampleBody sampleDecode encodeResponse
          (Build_Request "POST" (ObjectWithNumber "4003600000000014"))
  = Ret [Call_Decode;
         Call_luhnAlgorithm "4003600000000014";
         Call_Marshal {| Valid := true |};
         Call_Header_Set "Content-Type" "application/json";
         Call_Write (validJSON true)].
Proof. vm_compute. reflexivity. Qed.

Example end_to_end_missing_field :
  callsOf SampleBody sampleDecode encodeResponse (Build_Request "POST" ObjectWithoutNumber)
  = Ret [Call_Decode;
         Call_luhnAlgorithm "";
         Call_Marshal {| Valid := true |};
         Call_Header_Set "Content-Type" "application/json";
         Call_Write (validJSON true)].
Proof. vm_compute. reflexivity. Qed.

Example end_to_end_lowercase_method :
  callsOf SampleBody sampleDecode encodeResponse
          (Build_Request "post" (ObjectWithNumber "4003600000000014"))
  = Ret [Call_http_Error "Invalid request method" 405].
Proof. vm_compute. reflexivity. Qed.

(** * Further properties of the checksum *)

(** ** Totals of concatenations *)

Lemma list_ascii_append (s1 s2 : string) :
  list_ascii_of_string (s1 ++ s2)
  = (list_ascii_of_string s1 ++ list_ascii_of_string s2)%list.
Proof. induction s1 as [|c s1 IH]; simpl; congruence. Qed.

Lemma length_append (s1 s2 : string) :
  String.length (s1 ++ s2) = (String.length s1 + String.length s2)%nat.
Proof. induction s1 as [|c s1 IH]; simpl; congruence. Qed.

Lemma sumFromRight_parity (value : ascii -> Z) (cs : list ascii) :
  forall p p' : nat,
    Nat.even p = Nat.even p' ->
    sumFromRight value p cs = sumFromRight value p' cs.
Proof.
  induction cs as [|c cs IH]; intros p p' H; [reflexivity|].
  cbn [sumFromRight]. unfold positionValue. rewrite H.
  rewrite (IH (S p) (S p')); [reflexivity|].
  now rewrite !Nat.even_succ, <- !Nat.negb_even, H.
Qed.

(** The total of [p ++ m ++ q]: the part of [q], the part of [m] starting
    at the position after [q], and the part of [p] after both. *)
Lemma referenceTotal_split (p m q : string) :
  referenceTotal (p ++ m ++ q)
  = sumFromRight digitValue 1 (rev (list_ascii_of_string q))
    + sumFromRight digitValue (S (String.length q)) (rev (list_ascii_of_string m))
    + sumFromRight digitValue (S (String.length q + String.length m))
                   (rev (list_ascii_of_string p)).
Proof.
  unfold referenceTotal, referenceTotalWith.
  rewrite !list_ascii_append, !rev_app_distr, <- app_assoc.
  rewrite !sumFromRight_app, !length_rev, <- !length_list_ascii.
  cbn [Nat.add]. rewrite Z.add_assoc. reflexivity.
Qed.

(** Below the overflow bound the verdict is the test on the exact total. *)
Lemma luhnAlgorithm_verdict (s : string) :
  Z.of_nat (String.length s) < 2 ^ 54 ->
  luhnAlgorithm s = Ret (referenceTotal s mod 10 =? 0).
Proof.
  intros H. rewrite luhnAlgorithm_eq, referenceTotal_no_overflow by assumption.
  unfold GoInt.rem. rewrite Z.rem_mod_nonneg; [reflexivity| |lia].
  apply referenceTotal_range.
Qed.

Lemma mod10_zero_iff (z : Z) : z mod 10 = 0 <-> exists k : Z, z = 10 * k.
Proof.
  split.
  - intros H. exists (z / 10). pose proof (Z.div_mod z 10 ltac:(lia)). lia.
  - intros [k ->]. rewrite Z.mul_comm. apply Z.mod_mul. lia.
Qed.

(** ** Digits *)

Lemma of_ascii_inj (a b : ascii) : GoByte.of_ascii a = GoByte.of_ascii b -> a = b.
Proof.
  unfold GoByte.of_ascii. intros H. apply N2Z.inj in H.
  rewrite <- (ascii_N_embedding a), <- (ascii_N_embedding b). now rewrite H.
Qed.

Lemma digit_value (c : ascii) :
  isDigit c = true -> digitValue c = GoByte.of_ascii c - 48 /\ 0 <= digitValue c <= 9.
Proof.
  intros Hc. unfold isDigit in Hc. apply andb_true_iff in Hc.
  destruct Hc as [Hlo Hhi]. apply Z.leb_le in Hlo, Hhi.
  rewrite (digitValue_at_or_above_zero c Hlo). unfold plainOffset.
  change (GoByte.of_ascii "0") with 48 in *. change (GoByte.of_ascii "9") with 57 in *.
  lia.
Qed.

Lemma digit_value_inj (a b : ascii) :
  isDigit a = true -> isDigit b = true -> digitValue a = digitValue b -> a = b.
Proof.
  intros Ha Hb H. apply of_ascii_inj.
  destruct (digit_value a Ha) as [Ea _], (digit_value b Hb) as [Eb _]. lia.
Qed.

(** Doubling permutes the ten digits modulo 10. *)
Lemma doubled_injective_mod10 (x y k : Z) :
  0 <= x <= 9 -> 0 <= y <= 9 -> doubled x - doubled y = 10 * k -> x = y.
Proof.
  unfold doubled. intros Hx Hy.
  destruct (2 * x >? 9) eqn:Ex; destruct (2 * y >? 9) eqn:Ey; lia.
Qed.

Lemma positionValue_injective_mod10 (p : nat) (x y k : Z) :
  0 <= x <= 9 -> 0 <= y <= 9 ->
  positionValue p x - positionValue p y = 10 * k -> x = y.
Proof.
  unfold positionValue. destruct (Nat.even p).
  - apply doubled_injective_mod10.
  - intros; lia.
Qed.

(** The weight of a swap: [doubled d - d] is 0 modulo 10 for 0 and 9 alone,
    and separates every other pair of digits. *)
Lemma swap_weight_injective (x y k : Z) :
  0 <= x <= 9 -> 0 <= y <= 9 ->
  (doubled x - x) - (doubled y - y) = 10 * k ->
  x = y \/ (x = 0 /\ y = 9) \/ (x = 9 /\ y = 0).
Proof.
  unfold doubled. intros Hx Hy.
  destruct (2 * x >? 9) eqn:Ex; destruct (2 * y >? 9) eqn:Ey; lia.
Qed.

Lemma pair_sum (k : nat) (x y : Z) :
  positionValue k y + positionValue (S k) x
  = if Nat.even k then doubled y + x else y + doubled x.
Proof.
  unfold positionValue. rewrite Nat.even_succ, <- Nat.negb_even.
  destruct (Nat.even k); reflexivity.
Qed.

Lemma verdict_false_of_total (s : string) :
  Z.of_nat (String.length s) < 2 ^ 54 ->
  (forall k : Z, referenceTotal s <> 10 * k) ->
  luhnAlgorithm s = Ret false.
Proof.
  intros Hlen Hk. rewrite luhnAlgorithm_verdict by assumption.
  destruct (referenceTotal s mod 10 =? 0) eqn:E; [|reflexivity].
  apply Z.eqb_eq, mod10_zero_iff in E. destruct E as [k E]. now apply Hk in E.
Qed.

Lemma total_of_verdict_true (s : string) :
  Z.of_nat (String.length s) < 2 ^ 54 ->
  luhnAlgorithm s = Ret true ->
  exists k : Z, referenceTotal s = 10 * k.
Proof.
  intros Hlen H. rewrite luhnAlgorithm_verdict in H by assumption.
  injection H as H. now apply Z.eqb_eq, mod10_zero_iff in H.
Qed.

Lemma verdict_of_equal_residue (s s' : string) (k : Z) :
  Z.of_nat (String.length s) < 2 ^ 54 ->
  Z.of_nat (String.length s') < 2 ^ 54 ->
  referenceTotal s' = referenceTotal s + 10 * k ->
  luhnAlgorithm s' = luhnAlgorithm s.
Proof.
  intros H H' E. rewrite !luhnAlgorithm_verdict by assumption.
  rewrite E, Z.mul_comm, Z.mod_add by lia. reflexivity.
Qed.

(** ** What the checksum detects *)

(** X1.  Replacing one digit of a valid string by a different digit makes it
    invalid, wherever the digit stands and whatever the other characters
    are. *)
Theorem single_digit_error_detected (p q : string) (a b : ascii) :
  isDigit a = true -> isDigit b = true -> a <> b ->
  Z.of_nat (String.length (p ++ String a q)) < 2 ^ 54 ->
  luhnAlgorithm (p ++ String a q) = Ret true ->
  luhnAlgorithm (p ++ String b q) = Ret false.
Proof.
  intros Ha Hb Hab Hlen Hvalid.
  assert (Hlen' : Z.of_nat (String.length (p ++ String b q)) < 2 ^ 54)
    by (rewrite length_append in *; exact Hlen).
  destruct (total_of_verdict_true _ Hlen Hvalid) as [k Hk].
  apply verdict_false_of_total; [exact Hlen'|]. intros k' Hk'.
  change (p ++ String a q) with (p ++ (String a "" ++ q)) in Hk.
  change (p ++ String b q) with (p ++ (String b "" ++ q)) in Hk'.
  rewrite referenceTotal_split in Hk, Hk'.
  cbn [list_ascii_of_string rev app sumFromRight String.length] in Hk, Hk'.
  apply Hab, (digit_value_inj a b Ha Hb).
  apply (positionValue_injective_mod10 (S (String.length q)) _ _ (k - k'));
    try (apply digit_value; assumption).
  lia.
Qed.

Lemma single_digit_error_detected_witness :
  isDigit "0" = true /\ isDigit "5" = true /\ "0"%char <> "5"%char
  /\ Z.of_nat (String.length ("40036000" ++ String "0" "0000014")) < 2 ^ 54
  /\ luhnAlgorithm ("40036000" ++ String "5" "0000014") = Ret false.
Proof.
  assert (Hne : "0"%char <> "5"%char) by discriminate.
  assert (Hlen : Z.of_nat (String.length ("40036000" ++ String "0" "0000014")) < 2 ^ 54)
    by (vm_compute; reflexivity).
  assert (Hv : luhnAlgorithm ("40036000" ++ String "0" "0000014") = Ret true)
    by (vm_compute; reflexivity).
  split; [reflexivity|]. split; [reflexivity|]. split; [exact Hne|].
  split; [exact Hlen|].
  exact (single_digit_error_detected "40036000" "0000014" "0" "5"
           eq_refl eq_refl Hne Hlen Hv).
Defined.

(** X2.  Swapping two adjacent digits of a valid string makes it invalid,
    unless the two digits are equal or are 0 and 9. *)
Theorem adjacent_transposition_detected (p q : string) (a b : ascii) :
  isDigit a = true -> isDigit b = true -> a <> b ->
  ~ (a = "0"%char /\ b = "9"%char) -> ~ (a = "9"%char /\ b = "0"%char) ->
  Z.of_nat (String.length (p ++ String a (String b q))) < 2 ^ 54 ->
  luhnAlgorithm (p ++ String a (String b q)) = Ret true ->
  luhnAlgorithm (p ++ String b (String a q)) = Ret false.
Proof.
  intros Ha Hb Hab H09 H90 Hlen Hvalid.
  assert (Hlen' : Z.of_nat (String.length (p ++ String b (String a q))) < 2 ^ 54)
    by (rewrite length_append in *; exact Hlen).
  destruct (total_of_verdict_true _ Hlen Hvalid) as [k Hk].
  apply verdict_false_of_total; [exact Hlen'|]. intros k' Hk'.
  change (p ++ String a (String b q)) with (p ++ (String a (String b "") ++ q)) in Hk.
  change (p ++ String b (String a q)) with (p ++ (String b (String a "") ++ q)) in Hk'.
  rewrite referenceTotal_split in Hk, Hk'.
  cbn [list_ascii_of_string rev app sumFromRight String.length] in Hk, Hk'.
  rewrite Z.add_0_r, pair_sum in Hk, Hk'.
  destruct (digit_value a Ha) as [_ Ra], (digit_value b Hb) as [_ Rb].
  assert (Hcases : digitValue a = digitValue b
                   \/ (digitValue a = 0 /\ digitValue b = 9)
                   \/ (digitValue a = 9 /\ digitValue b = 0)).
  { destruct (Nat.even (S (String.length q))).
    - apply (swap_weight_injective _ _ (k' - k)); [assumption..|lia].
    - apply (swap_weight_injective _ _ (k - k')); [assumption..|lia]. }
  destruct Hcases as [E|[[Ea Eb]|[Ea Eb]]].
  - apply Hab, (digit_value_inj a b Ha Hb E).
  - apply H09. split.
    + apply (digit_value_inj a "0" Ha eq_refl). rewrite Ea. reflexivity.
    + apply (digit_value_inj b "9" Hb eq_refl). rewrite Eb. reflexivity.
  - apply H90. split.
    + apply (digit_value_inj a "9" Ha eq_refl). rewrite Ea. reflexivity.
    + apply (digit_value_inj b "0" Hb eq_refl). rewrite Eb. reflexivity.
Qed.

Lemma adjacent_transposition_detected_witness :
  isDigit "1" = true /\ isDigit "4" = true
  /\ Z.of_nat (String.length ("40036000000000" ++ String "1" (String "4" ""))) < 2 ^ 54
  /\ luhnAlgorithm ("40036000000000" ++ String "1" (String "4" "")) = Ret true
  /\ luhnAlgorithm ("40036000000000" ++ String "4" (String "1" "")) = Ret false.
Proof.
  assert (Hv : luhnAlgorithm ("40036000000000" ++ String "1" (String "4" "")) = Ret true)
    by (vm_compute; reflexivity).
  assert (Hlen : Z.of_nat (String.length
                             ("40036000000000" ++ String "1" (String "4" ""))) < 2 ^ 54)
    by (vm_compute; reflexivity).
  assert (Hne : "1"%char <> "4"%char) by discriminate.
  assert (H09 : ~ ("1"%char = "0"%char /\ "4"%char = "9"%char))
    by (intros [H _]; discriminate H).
  assert (H90 : ~ ("1"%char = "9"%char /\ "4"%char = "0"%char))
    by (intros [H _]; discriminate H).
  split; [reflexivity|]. split; [reflexivity|].
  split; [exact Hlen|]. split; [exact Hv|].
  exact (adjacent_transposition_detected "40036000000000" "" "1" "4"
           eq_refl eq_refl Hne H09 H90 Hlen Hv).
Defined.

(** X3.  What the checksum cannot see: swapping an adjacent 0 and 9, and
    replacing the twin 22 by 55, 33 by 66 or 44 by 77, leave the total and so
    the verdict unchanged, in every string and at every place. *)
Theorem undetected_changes (p q : string) :
  luhnAlgorithm (p ++ "09" ++ q) = luhnAlgorithm (p ++ "90" ++ q)
  /\ luhnAlgorithm (p ++ "22" ++ q) = luhnAlgorithm (p ++ "55" ++ q)
  /\ luhnAlgorithm (p ++ "33" ++ q) = luhnAlgorithm (p ++ "66" ++ q)
  /\ luhnAlgorithm (p ++ "44" ++ q) = luhnAlgorithm (p ++ "77" ++ q).
Proof.
  repeat split; rewrite !luhnAlgorithm_eq; do 4 f_equal;
    rewrite !referenceTotal_split;
    cbn [list_ascii_of_string rev app sumFromRight String.length];
    rewrite !Z.add_0_r, !pair_sum;
    destruct (Nat.even (S (String.length q))); reflexivity.
Qed.

(** ** Check digits and composition *)

Lemma digit_of_value (d : Z) :
  0 <= d <= 9 ->
  exists c : ascii, isDigit c = true /\ digitValue c = d.
Proof.
  intros H.
  assert (Hd : d = 0 \/ d = 1 \/ d = 2 \/ d = 3 \/ d = 4
               \/ d = 5 \/ d = 6 \/ d = 7 \/ d = 8 \/ d = 9) by lia.
  destruct Hd as [->|[->|[->|[->|[->|[->|[->|[->|[->| ->]]]]]]]]];
    [exists "0"%char | exists "1"%char | exists "2"%char | exists "3"%char
     | exists "4"%char | exists "5"%char | exists "6"%char | exists "7"%char
     | exists "8"%char | exists "9"%char]; split; reflexivity.
Qed.

(** The total of a string extended by one character on the right. *)
Lemma referenceTotal_snoc (s : string) (c : ascii) :
  referenceTotal (s ++ String c "")
  = digitValue c + sumFromRight digitValue 2 (rev (list_ascii_of_string s)).
Proof.
  change (s ++ String c "") with (s ++ (String c "" ++ "")).
  rewrite referenceTotal_split.
  cbn [list_ascii_of_string rev app sumFromRight String.length Nat.add].
  unfold positionValue. cbn [Nat.even]. ring.
Qed.

(** X4.  Every string, of digits or not, has exactly one check digit: one
    digit character that, appended on the right, makes the result valid. *)
Theorem check_digit_exists_unique (s : string) :
  Z.of_nat (S (String.length s)) < 2 ^ 54 ->
  exists c : ascii,
    (isDigit c = true /\ luhnAlgorithm (s ++ String c "") = Ret true)
    /\ forall c' : ascii,
        isDigit c' = true -> luhnAlgorithm (s ++ String c' "") = Ret true -> c' = c.
Proof.
  intros Hlen.
  assert (Hl : forall x : ascii, Z.of_nat (String.length (s ++ String x "")) < 2 ^ 54).
  { intros x. rewrite length_append. cbn [String.length].
    replace (String.length s + 1)%nat with (S (String.length s)) by lia. exact Hlen. }
  set (R := sumFromRight digitValue 2 (rev (list_ascii_of_string s))).
  destruct (digit_of_value ((- R) mod 10)) as (c & Hc & Hv).
  { pose proof (Z.mod_pos_bound (- R) 10 ltac:(lia)). lia. }
  exists c. split; [split; [exact Hc|]|].
  - rewrite luhnAlgorithm_verdict by apply Hl.
    rewrite referenceTotal_snoc. fold R. rewrite Hv.
    rewrite Zplus_mod_idemp_l. replace (- R + R) with 0 by ring. reflexivity.
  - intros c' Hc' Hvalid.
    destruct (total_of_verdict_true _ (Hl c') Hvalid) as [k Hk].
    rewrite referenceTotal_snoc in Hk. fold R in Hk.
    apply (digit_value_inj c' c Hc' Hc).
    destruct (digit_value c' Hc') as [_ Rc'], (digit_value c Hc) as [_ Rc].
    pose proof (Z.div_mod (- R) 10 ltac:(lia)) as Hdm. lia.
Qed.

Lemma check_digit_exists_unique_witness :
  Z.of_nat (S (String.length "400360000000001")) < 2 ^ 54
  /\ exists c : ascii,
      (isDigit c = true /\ luhnAlgorithm ("400360000000001" ++ String c "") = Ret true)
      /\ forall c' : ascii,
          isDigit c' = true ->
          luhnAlgorithm ("400360000000001" ++ String c' "") = Ret true -> c' = c.
Proof.
  assert (Hlen : Z.of_nat (S (String.length "400360000000001")) < 2 ^ 54)
    by (vm_compute; reflexivity).
  split; [exact Hlen|].
  exact (check_digit_exists_unique "400360000000001" Hlen).
Defined.

(** X5.  Characters are not checked: at an undoubled position (an even
    number of characters to its right), a character at or above '0' can be
    replaced by the character ten codes higher without changing the verdict;
    the colon stands for 0 there, '>' for 4. *)
Theorem shift_by_ten_undetected (p q : string) (c c' : ascii) :
  Nat.even (String.length q) = true ->
  GoByte.of_ascii "0" <= GoByte.of_ascii c ->
  GoByte.of_ascii c' = GoByte.of_ascii c + 10 ->
  Z.of_nat (String.length (p ++ String c q)) < 2 ^ 54 ->
  luhnAlgorithm (p ++ String c' q) = luhnAlgorithm (p ++ String c q).
Proof.
  intros Hq Hc Hc' Hlen.
  assert (Hlen' : Z.of_nat (String.length (p ++ String c' q)) < 2 ^ 54)
    by (rewrite length_append in *; exact Hlen).
  apply (verdict_of_equal_residue _ _ 1 Hlen Hlen').
  change (p ++ String c q) with (p ++ (String c "" ++ q)).
  change (p ++ String c' q) with (p ++ (String c' "" ++ q)).
  rewrite !referenceTotal_split.
  cbn [list_ascii_of_string rev app sumFromRight String.length].
  unfold positionValue. rewrite Nat.even_succ, <- Nat.negb_even, Hq. cbn [negb].
  rewrite (digitValue_at_or_above_zero c Hc).
  rewrite (digitValue_at_or_above_zero c') by lia.
  unfold plainOffset. lia.
Qed.

Lemma shift_by_ten_undetected_witness :
  Nat.even (String.length "") = true
  /\ GoByte.of_ascii "0" <= GoByte.of_ascii "4"
  /\ GoByte.of_ascii ">" = GoByte.of_ascii "4" + 10
  /\ Z.of_nat (String.length ("400360000000001" ++ String "4" "")) < 2 ^ 54
  /\ luhnAlgorithm ("400360000000001" ++ String ">" "")
     = luhnAlgorithm ("400360000000001" ++ String "4" "").
Proof.
  assert (H0 : GoByte.of_ascii "0" <= GoByte.of_ascii "4") by (vm_compute; discriminate).
  assert (Hlen : Z.of_nat (String.length ("400360000000001" ++ String "4" "")) < 2 ^ 54)
    by (vm_compute; reflexivity).
  split; [reflexivity|]. split; [exact H0|]. split; [reflexivity|].
  split; [exact Hlen|].
  exact (shift_by_ten_undetected "400360000000001" "" "4" ">" eq_refl H0 eq_refl Hlen).
Defined.

(** X6.  Blocks of even length compose: when [s2] has an even number of
    characters the total of [s1 ++ s2] is the sum of the two totals, so
    appending a valid even-length block to [s1] keeps the verdict of [s1],
    and prepending a valid string to an even-length [s2] keeps the verdict
    of [s2]. *)
Theorem even_block_concatenation (s1 s2 : string) :
  Nat.even (String.length s2) = true ->
  referenceTotal (s1 ++ s2) = referenceTotal s1 + referenceTotal s2
  /\ (Z.of_nat (String.length (s1 ++ s2)) < 2 ^ 54 ->
      luhnAlgorithm s2 = Ret true ->
      luhnAlgorithm (s1 ++ s2) = luhnAlgorithm s1)
  /\ (Z.of_nat (String.length (s1 ++ s2)) < 2 ^ 54 ->
      luhnAlgorithm s1 = Ret true ->
      luhnAlgorithm (s1 ++ s2) = luhnAlgorithm s2).
Proof.
  intros Heven.
  assert (Ht : referenceTotal (s1 ++ s2) = referenceTotal s1 + referenceTotal s2).
  { unfold referenceTotal, referenceTotalWith.
    rewrite list_ascii_append, rev_app_distr, sumFromRight_app, length_rev,
      <- length_list_ascii.
    rewrite (sumFromRight_parity digitValue _ (1 + String.length s2) 1); [ring|].
    cbn [Nat.add]. rewrite Nat.even_succ, <- Nat.negb_even, Heven. reflexivity. }
  split; [exact Ht|].
  split; intros Hlen Hvalid;
    (assert (H1 : Z.of_nat (String.length s1) < 2 ^ 54)
      by (rewrite length_append in Hlen; lia));
    (assert (H2 : Z.of_nat (String.length s2) < 2 ^ 54)
      by (rewrite length_append in Hlen; lia)).
  - destruct (total_of_verdict_true _ H2 Hvalid) as [k Hk].
    apply (verdict_of_equal_residue _ _ k H1 Hlen). lia.
  - destruct (total_of_verdict_true _ H1 Hvalid) as [k Hk].
    apply (verdict_of_equal_residue _ _ k H2 Hlen). lia.
Qed.

Lemma even_block_concatenation_witness :
  Nat.even (String.length "4003600000000014") = true
  /\ Z.of_nat (String.length ("79927398713" ++ "4003600000000014")) < 2 ^ 54
  /\ luhnAlgorithm "4003600000000014" = Ret true
  /\ luhnAlgorithm ("79927398713" ++ "4003600000000014") = luhnAlgorithm "79927398713".
Proof.
  assert (Hlen : Z.of_nat (String.length ("79927398713" ++ "4003600000000014")) < 2 ^ 54)
    by (vm_compute; reflexivity).
  assert (Hv : luhnAlgorithm "4003600000000014" = Ret true) by (vm_compute; reflexivity).
  split; [reflexivity|]. split; [exact Hlen|]. split; [exact Hv|].
  exact (proj1 (proj2 (even_block_concatenation "79927398713" "4003600000000014" eq_refl))
               Hlen Hv).
Defined.

(** X11.  A pair of zeros can be inserted anywhere, or removed, without
    changing the verdict: each zero adds 0 doubled or not, and two characters
    keep the parity of everything to their left. *)
Theorem double_zero_insertion (p q : string) :
  luhnAlgorithm (p ++ "00" ++ q) = luhnAlgorithm (p ++ q)
  /\ referenceTotal (p ++ "00" ++ q) = referenceTotal (p ++ q).
Proof.
  assert (Ht : referenceTotal (p ++ "00" ++ q) = referenceTotal (p ++ q)).
  { change (p ++ q) with (p ++ ("" ++ q)).
    rewrite !referenceTotal_split.
    cbn [list_ascii_of_string rev app sumFromRight String.length].
    rewrite Z.add_0_r, pair_sum.
    rewrite (sumFromRight_parity digitValue _ (S (String.length q + 2))
                                 (S (String.length q + 0))).
    - destruct (Nat.even (S (String.length q))); reflexivity.
    - rewrite Nat.add_0_r, Nat.add_comm. cbn [Nat.add].
      now rewrite !Nat.even_succ_succ. }
  split; [|exact Ht]. now rewrite !luhnAlgorithm_eq, Ht.
Qed.

(** X12.  The running total is never negative and grows by at most 501 per
    character (at most 9 per character when all are digits): the loop
    returns a total between 0 and 501 times the length, so below 2^54
    characters no addition wraps around. *)
Theorem running_total_bounds (s : string) :
  Z.of_nat (String.length s) < 2 ^ 54 ->
  exists total : Z,
    luhnLoop s (String.length s) 0 false = Ret total
    /\ total = referenceTotal s
    /\ 0 <= total <= 501 * Z.of_nat (String.length s)
    /\ total < 2 ^ 63
    /\ (Forall (fun c => isDigit c = true) (list_ascii_of_string s) ->
        total <= 9 * Z.of_nat (String.length s)).
Proof.
  intros Hlen. exists (referenceTotal s).
  pose proof (referenceTotal_range s) as Hr.
  split; [|split; [reflexivity|split; [exact Hr|split; [lia|]]]].
  - change false with (Nat.even 1).
    rewrite (luhnLoop_total s (String.length s) 1 0) by (auto; reflexivity).
    rewrite Z.add_0_l, length_list_ascii, firstn_all.
    f_equal. now apply referenceTotal_no_overflow.
  - intros Hdigits. unfold referenceTotal, referenceTotalWith.
    rewrite length_list_ascii, <- (length_rev (list_ascii_of_string s)).
    apply Forall_rev in Hdigits. revert Hdigits.
    generalize (rev (list_ascii_of_string s)) as cs. generalize 1%nat as k.
    intros k cs. revert k. induction cs as [|c cs IH]; intros k Hd.
    + cbn. lia.
    + inversion Hd as [|? ? Hc Hcs]; subst.
      cbn [sumFromRight List.length]. specialize (IH (S k) Hcs).
      destruct (digit_value c Hc) as [_ Rc].
      assert (positionValue k (digitValue c) <= 9).
      { unfold positionValue, doubled.
        destruct (Nat.even k); [destruct (2 * digitValue c >? 9) eqn:E|]; lia. }
      lia.
Qed.

Lemma running_total_bounds_witness :
  Z.of_nat (String.length "4003600000000014") < 2 ^ 54
  /\ exists total : Z,
      luhnLoop "4003600000000014" (String.length "4003600000000014") 0 false = Ret total
      /\ total = referenceTotal "4003600000000014"
      /\ 0 <= total <= 501 * Z.of_nat (String.length "4003600000000014")
      /\ total < 2 ^ 63
      /\ (Forall (fun c => isDigit c = true) (list_ascii_of_string "4003600000000014") ->
          total <= 9 * Z.of_nat (String.length "4003600000000014")).
Proof.
  assert (Hlen : Z.of_nat (String.length "4003600000000014") < 2 ^ 54)
    by (vm_compute; reflexivity).
  split; [exact Hlen|].
  exact (running_total_bounds "4003600000000014" Hlen).
Defined.

(** * Further properties of the handler *)

Section HandlerExtras.

Context {Stream : Type}.
Variable decodeJSON : Stream -> CardNumber -> CardNumber * error.
Variable marshalJSON : Response -> string * error.

(** X7.  The handler does not check that a number was sent: when the
    decoder reports no error and the decoded number is empty (the field is
    absent, or is the empty string), the reply is 200 with valid set to
    true. *)
Theorem empty_number_reported_valid (request : Request Stream) (cardNumber : CardNumber) :
  Method request = MethodPost ->
  decodeJSON (Body request) {| Number := "" |} = (cardNumber, None) ->
  Number cardNumber = "" ->
  exists calls : list Call,
    callsOf Stream decodeJSON encodeResponse request = Ret calls
    /\ calls = [Call_Decode;
                Call_luhnAlgorithm "";
                Call_Marshal {| Valid := true |};
                Call_Header_Set "Content-Type" "application/json";
                Call_Write (validJSON true)]
    /\ replyOf calls = DataReply 200 (Some "application/json") (validJSON true).
Proof.
  intros Hm Hd Hn. eexists. split; [apply callsOf_expected|].
  rewrite (expectedCalls_decoded _ _ _ _ Hm Hd), Hn.
  split; reflexivity.
Qed.

(** X8.  The status of the reply is decided by the first check that fails:
    405 exactly when the method is not POST; 400 exactly when the method is
    POST and the decoder reports an error; 500 exactly when both pass and
    the encoder reports an error; 200 exactly when all three pass.  No other
    status is ever sent. *)
Theorem reply_status_characterised (request : Request Stream) :
  exists calls : list Call,
    callsOf Stream decodeJSON marshalJSON request = Ret calls
    /\ (statusOf (replyOf calls) = 405 <-> Method request <> MethodPost)
    /\ (statusOf (replyOf calls) = 400
        <-> Method request = MethodPost
            /\ snd (decodeJSON (Body request) {| Number := "" |}) <> None)
    /\ (statusOf (replyOf calls) = 500
        <-> Method request = MethodPost
            /\ snd (decodeJSON (Body request) {| Number := "" |}) = None
            /\ exists b : bool,
                luhnAlgorithm (Number (fst (decodeJSON (Body request) {| Number := "" |})))
                = Ret b
                /\ snd (marshalJSON {| Valid := b |}) <> None)
    /\ (statusOf (replyOf calls) = 200
        <-> Method request = MethodPost
            /\ snd (decodeJSON (Body request) {| Number := "" |}) = None
            /\ exists b : bool,
                luhnAlgorithm (Number (fst (decodeJSON (Body request) {| Number := "" |})))
                = Ret b
                /\ snd (marshalJSON {| Valid := b |}) = None).
Proof.
  eexists. split; [apply callsOf_expected|].
  destruct (String.eqb_spec (Method request) MethodPost) as [Hm|Hm].
  - destruct (decodeJSON (Body request) {| Number := "" |}) as [cardNumber [e|]] eqn:Hd.
    + rewrite (expectedCalls_undecodable _ _ _ _ _ Hm Hd). cbn [fst snd].
      change (statusOf (replyOf [Call_Decode;
                                 Call_http_Error "Invalid JSON payload" StatusBadRequest]))
        with 400.
      split; [|split; [|split]].
      * split; [discriminate | intros H; contradiction].
      * split; [intros _; split; [exact Hm | discriminate] | reflexivity].
      * split; [discriminate | intros (_ & H & _); discriminate H].
      * split; [discriminate | intros (_ & H & _); discriminate H].
    + rewrite (expectedCalls_decoded _ _ _ _ Hm Hd). cbn [fst snd].
      set (b := GoInt.rem (GoInt.wrap (referenceTotal (Number cardNumber))) 10 =? 0).
      assert (Hrun : luhnAlgorithm (Number cardNumber) = Ret b)
        by apply luhnAlgorithm_eq.
      assert (Hb : forall b' : bool, luhnAlgorithm (Number cardNumber) = Ret b' -> b' = b)
        by (intros b' H; rewrite Hrun in H; now injection H).
      destruct (snd (marshalJSON {| Valid := b |})) as [e|] eqn:Hmar.
      * change (statusOf (replyOf _)) with 500.
        split; [|split; [|split]].
        -- split; [discriminate | intros H; contradiction].
        -- split; [discriminate | intros [_ H]; now elim H].
        -- split; [|reflexivity]. intros _. split; [exact Hm|]. split; [reflexivity|].
           exists b. split; [exact Hrun|]. rewrite Hmar. discriminate.
        -- split; [discriminate|]. intros (_ & _ & b' & Hb' & H).
           apply Hb in Hb'. subst b'. rewrite Hmar in H. discriminate H.
      * change (statusOf (replyOf _)) with 200.
        split; [|split; [|split]].
        -- split; [discriminate | intros H; contradiction].
        -- split; [discriminate | intros [_ H]; now elim H].
        -- split; [discriminate|]. intros (_ & _ & b' & Hb' & H).
           apply Hb in Hb'. subst b'. now rewrite Hmar in H.
        -- split; [|reflexivity]. intros _. split; [exact Hm|]. split; [reflexivity|].
           exists b. split; [exact Hrun | exact Hmar].
  - rewrite (expectedCalls_not_post _ _ _ Hm).
    change (statusOf (replyOf _)) with 405.
    split; [|split; [|split]].
    + split; [intros _; exact Hm | reflexivity].
    + split; [discriminate | intros [H _]; contradiction].
    + split; [discriminate | intros [H _]; contradiction].
    + split; [discriminate | intros [H _]; contradiction].
Qed.

(** X9.  The handler replies exactly once and stops: for every request,
    decoder and encoder, the last call of the handler is the one call that
    sends a reply ([http.Error] or [Write]); the decoder and the validator
    are each called at most once, the validator only after the decoder. *)
Theorem handler_replies_once_and_stops (request : Request Stream) :
  exists (calls before : list Call) (final : Call),
    callsOf Stream decodeJSON marshalJSON request = Ret calls
    /\ calls = (before ++ [final])%list
    /\ sendsReply final = true
    /\ filter sendsReply before = []
    /\ (List.length (filter callsDecoder calls) <= 1)%nat
    /\ (List.length (filter callsValidator calls) <= 1)%nat
    /\ (forall (number : string) (earlier later : list Call),
           calls = (earlier ++ Call_luhnAlgorithm number :: later)%list ->
           In Call_Decode earlier).
Proof.
  assert (Hdec : forall (number : string) (rest earlier later : list Call),
             (Call_Decode :: rest = earlier ++ Call_luhnAlgorithm number :: later)%list ->
             In Call_Decode earlier).
  { intros number rest [|c earlier] later H; [discriminate H|].
    injection H as -> _. now left. }
  unfold callsOf. rewrite creditCardValidator_appends. cbn [app].
  unfold expectedCalls.
  destruct (String.eqb (Method request) MethodPost).
  - destruct (decodeJSON (Body request) {| Number := "" |}) as [cardNumber [e|]].
    + eexists _, [Call_Decode], _. split; [reflexivity|].
      split; [reflexivity|]. split; [reflexivity|]. split; [reflexivity|].
      split; [cbn; lia|]. split; [cbn; lia|].
      intros number earlier later H. exact (Hdec _ _ _ _ H).
    + destruct (marshalJSON _) as [js [e|]].
      * eexists _, [Call_Decode; Call_luhnAlgorithm _; Call_Marshal _], _.
        split; [reflexivity|].
        split; [reflexivity|]. split; [reflexivity|]. split; [reflexivity|].
        split; [cbn; lia|]. split; [cbn; lia|].
        intros number earlier later H. exact (Hdec _ _ _ _ H).
      * eexists _, [Call_Decode; Call_luhnAlgorithm _; Call_Marshal _;
                    Call_Header_Set _ _], _.
        split; [reflexivity|].
        split; [reflexivity|]. split; [reflexivity|]. split; [reflexivity|].
        split; [cbn; lia|]. split; [cbn; lia|].
        intros number earlier later H. exact (Hdec _ _ _ _ H).
  - eexists _, [], _. split; [reflexivity|].
    split; [reflexivity|]. split; [reflexivity|]. split; [reflexivity|].
    split; [cbn; lia|]. split; [cbn; lia|].
    intros number [|c [|c' earlier]] later H; discriminate H.
Qed.

End HandlerExtras.

Lemma empty_number_reported_valid_witness :
  Method (Build_Request "POST" ObjectWithoutNumber) = MethodPost
  /\ sampleDecode ObjectWithoutNumber {| Number := "" |} = ({| Number := "" |}, None)
  /\ exists calls : list Call,
      callsOf SampleBody sampleDecode encodeResponse
              (Build_Request "POST" ObjectWithoutNumber) = Ret calls
      /\ calls = [Call_Decode;
                  Call_luhnAlgorithm "";
                  Call_Marshal {| Valid := true |};
                  Call_Header_Set "Content-Type" "application/json";
                  Call_Write (validJSON true)]
      /\ replyOf calls = DataReply 200 (Some "application/json") (validJSON true).
Proof.
  split; [reflexivity|]. split; [reflexivity|].
  exact (empty_number_reported_valid sampleDecode
           (Build_Request "POST" ObjectWithoutNumber) {| Number := "" |}
           eq_refl eq_refl eq_refl).
Defined.

